(** * Yukawa_RGE: two-loop gauge and one-loop Yukawa running in the MSSM

    A shallow embedding of [src/Yukawa_RGE.py].

    Names.  As printed, the source has a blank inside some identifiers
    ([tr Yu2], [tr Yd2], [tr Ye2], [y contrib1], [y contrib2],
    [y contrib3], on lines 38-40, 56-63 and 69-84), which Python refuses at
    line 38 with a SyntaxError before any statement runs.  Line 65 spells
    [y_contrib3] with an underscore; the embedding is of the text under
    that spelling ([tr_Yu2], [tr_Yd2], [tr_Ye2], [y_contrib1], ...), and a
    statement about what a call or the run does is a statement about the
    program so spelled.

    Numbers.  The program computes with binary64 floats.  The embedding has
    two readings of its arithmetic.

    - The real reading (the top level of this file): every float is the
      real number it denotes and [+], [-], [*], [/], [**] with a literal
      exponent, [np.sqrt], [np.log], [np.pi] are the operations of [R].
      It is used for properties that do not depend on rounding: which
      expression is written, signs, exact zeros, order.  Rounding,
      underflow, overflow and NaN are outside it.

    - The binary64 reading (module [F64]): the values are primitive floats
      and every operation is the correctly rounded IEEE 754 one, [x ** 2]
      being the rounded product [x * x].  It is used where the last bit
      matters: the conversion of the measured coupling strengths and the
      order of the additions in the traces.

    Failure.  Python exceptions are values of [exn]; code that may raise
    returns a [result]. *)

From Stdlib Require Import Floats.
From Stdlib Require Import Reals Lra Lia List.
Import ListNotations.

Set Warnings "-inexact-float".

Open Scope R_scope.

(** ** Exceptions and the error monad *)

Inductive exn : Set :=
| ValueError       (* sequence unpacking with the wrong number of values *)
| AttributeError.  (* attribute lookup on an object that lacks it *)

Inductive result (A : Type) : Type :=
| Ok (a : A)
| Err (e : exn).

Arguments Ok {A} a.
Arguments Err {A} e.

Definition bind {A B : Type} (m : result A) (k : A -> result B) : result B :=
  match m with
  | Ok a => k a
  | Err e => Err e
  end.

Notation "x <- m ;; k" := (bind m (fun x => k))
  (at level 61, m at next level, right associativity).

(** ** Constants (lines 12-27) *)

Definition MZ : R := 91.1876.
Definition MGUT : R := 2e16.

Definition alpha1_MZ : R := 0.016887.
Definition alpha2_MZ : R := 0.03378.
Definition alpha3_MZ : R := 0.1184.

Definition g1_MZ : R := sqrt (4 * PI * alpha1_MZ).
Definition g2_MZ : R := sqrt (4 * PI * alpha2_MZ).
Definition g3_MZ : R := sqrt (4 * PI * alpha3_MZ).

Definition yt_MZ : R := 0.99.
Definition yb_MZ : R := 0.016.
Definition ytau_MZ : R := 0.01.

(** ** The coupling vector (line 35)

    [g1, g2, g3, yt, yb, ytau, ys, yd, ymu, ye = y] binds ten names to the
    ten entries of [y] and raises ValueError for any other length. *)

Record couplings : Type := mkCouplings {
  g1 : R; g2 : R; g3 : R;
  yt : R; yb : R; ytau : R;
  ys : R; yd : R; ymu : R; ye : R
}.

Definition unpack (y : list R) : result couplings :=
  match y with
  | [a0; a1; a2; a3; a4; a5; a6; a7; a8; a9] =>
      Ok (mkCouplings a0 a1 a2 a3 a4 a5 a6 a7 a8 a9)
  | _ => Err ValueError
  end.

(** ** Trace invariants (lines 38-40) *)

Definition tr_Yu2 (c : couplings) : R := yt c ^ 2.
Definition tr_Yd2 (c : couplings) : R := yb c ^ 2 + ys c ^ 2 + yd c ^ 2.
Definition tr_Ye2 (c : couplings) : R := ytau c ^ 2 + ymu c ^ 2 + ye c ^ 2.

(** ** Gauge coefficients (lines 45-53) *)

Definition b1 : R := 33 / 5.
Definition b2 : R := 1.
Definition b3 : R := 3.

Definition B : list (list R) :=
  [ [199 / 25; 27 / 5; 88 / 5];
    [9 / 5;    25;     24];
    [11 / 5;   9;      14] ].

(** [B[i, j]]; every index in the source is a literal within range. *)
Definition Bij (i j : nat) : R := nth j (nth i B []) 0.

(** ** Yukawa contributions to the two-loop gauge terms (lines 56-58) *)

Definition y_contrib1 (c : couplings) : R :=
  (17 / 5) * tr_Yu2 c + (3 / 5) * tr_Yd2 c + (3 / 5) * tr_Ye2 c.
Definition y_contrib2 (c : couplings) : R :=
  3 * tr_Yu2 c + 3 * tr_Yd2 c + tr_Ye2 c.
Definition y_contrib3 (c : couplings) : R :=
  2 * tr_Yu2 c + 2 * tr_Yd2 c.

(** ** Gauge derivatives (lines 61-65) *)

Definition beta_g1 (c : couplings) : R :=
  g1 c ^ 3 / (16 * PI ^ 2) * b1
  + g1 c ^ 3 / (16 * PI ^ 2) ^ 2
    * (Bij 0 0 * g1 c ^ 2 + Bij 0 1 * g2 c ^ 2 + Bij 0 2 * g3 c ^ 2)
  - g1 c ^ 3 / (16 * PI ^ 2) ^ 2 * y_contrib1 c.

Definition beta_g2 (c : couplings) : R :=
  g2 c ^ 3 / (16 * PI ^ 2) * b2
  + g2 c ^ 3 / (16 * PI ^ 2) ^ 2
    * (Bij 1 0 * g1 c ^ 2 + Bij 1 1 * g2 c ^ 2 + Bij 1 1 * g3 c ^ 2)
  - g2 c ^ 3 / (16 * PI ^ 2) ^ 2 * y_contrib2 c.

Definition beta_g3 (c : couplings) : R :=
  g3 c ^ 3 / (16 * PI ^ 2) * b3
  + g3 c ^ 3 / (16 * PI ^ 2) ^ 2
    * (Bij 2 0 * g1 c ^ 2 + Bij 2 1 * g2 c ^ 2 + Bij 2 2 * g3 c ^ 2)
  - g3 c ^ 3 / (16 * PI ^ 2) ^ 2 * y_contrib3 c.

(** ** Yukawa derivatives (lines 69-84) *)

Definition beta_yt (c : couplings) : R :=
  (1 / (16 * PI ^ 2)) * yt c
  * (6 * yt c ^ 2 + yb c ^ 2 + 3 * tr_Yu2 c + tr_Yd2 c
     - (16 / 3 * g3 c ^ 2 + 3 * g2 c ^ 2 + 13 / 15 * g1 c ^ 2)).

Definition beta_yb (c : couplings) : R :=
  (1 / (16 * PI ^ 2)) * yb c
  * (6 * yb c ^ 2 + yt c ^ 2 + tr_Ye2 c + 3 * tr_Yd2 c
     - (16 / 3 * g3 c ^ 2 + 3 * g2 c ^ 2 + 1 / 15 * g1 c ^ 2)).

Definition beta_ytau (c : couplings) : R :=
  (1 / (16 * PI ^ 2)) * ytau c
  * (4 * ytau c ^ 2 + tr_Ye2 c + 3 * tr_Yd2 c
     - (3 * g2 c ^ 2 + 9 / 5 * g1 c ^ 2)).

Definition beta_ys (c : couplings) : R :=
  (1 / (16 * PI ^ 2)) * ys c
  * (tr_Ye2 c + 3 * tr_Yd2 c
     - (16 / 3 * g3 c ^ 2 + 3 * g2 c ^ 2 + 1 / 15 * g1 c ^ 2)).

Definition beta_ymu (c : couplings) : R :=
  (1 / (16 * PI ^ 2)) * ymu c
  * (tr_Ye2 c + 3 * tr_Yd2 c
     - (3 * g2 c ^ 2 + 9 / 5 * g1 c ^ 2)).

(** [x.replace(old, new)] on a float (lines 81 and 87).  Neither Python's
    [float] nor numpy's [float64] has an attribute [replace]: the lookup
    raises AttributeError, whatever the receiver and the arguments are. *)
Definition float_replace (self old new : R) : result R :=
  Err AttributeError.

(** ** beta_func (lines 32-89)

    The statements run in source order: the unpacking, the pure
    assignments of lines 38-78, the [replace] call of line 81, the
    assignment of line 84, the [replace] call of line 87 and the
    [return].  The scale [t] is not used.  The program calls [beta_func]
    through [odeint] only, on a numpy array whose entries are [float64]:
    there an overflow gives [inf] silently, where a direct call on Python
    floats would raise OverflowError; the real reading has neither. *)
Definition beta_func (y : list R) (t : R) : result (list R) :=
  c <- unpack y ;;
  beta_yd <- float_replace (beta_ys c) (ys c) (yd c) ;;
  beta_ye <- float_replace (beta_ymu c) (ymu c) (ye c) ;;
  Ok [beta_g1 c; beta_g2 c; beta_g3 c; beta_yt c; beta_yb c; beta_ytau c;
      beta_ys c; beta_yd; beta_ymu c; beta_ye].

(** ** Initial condition (line 92) *)

Definition y0 : list R :=
  [g1_MZ; g2_MZ; g3_MZ; yt_MZ; yb_MZ; ytau_MZ; 0.003; 0.0001; 0.06; 0.0005].

Definition c0 : couplings :=
  mkCouplings g1_MZ g2_MZ g3_MZ yt_MZ yb_MZ ytau_MZ 0.003 0.0001 0.06 0.0005.

(** ** Scale sample points (line 95)

    [np.linspace(start, stop, num)] (endpoint included): [num - 1] equal
    steps from [start], the last point set to [stop].
    [np.logspace(start, stop, num)] is [10.0 ** np.linspace(start, stop, num)];
    a float power of the positive base 10 is [Rpower 10]. *)

Definition linspace (start stop : R) (num : nat) : list R :=
  match num with
  | O => []
  | S O => [start]
  | S div =>
      let step := (stop - start) / INR div in
      map (fun i => INR i * step + start) (seq 0 div) ++ [stop]
  end.

Definition logspace (start stop : R) (num : nat) : list R :=
  map (Rpower 10) (linspace start stop num).

Definition t : list R := logspace 0 (ln (MGUT / MZ)) 1000.

(** A sequence is increasing when later entries are strictly larger. *)
Definition increasing (ts : list R) : Prop :=
  forall i j : nat, (i < j < length ts)%nat -> nth i ts 0 < nth j ts 0.

(** ** The driver (line 98)

    [odeint] belongs to scipy, not to this program: it is a parameter of the
    driver, and nothing is assumed of it. *)

Definition integrator : Type :=
  (list R -> R -> result (list R)) -> list R -> list R -> result (list (list R)).

Section Driver.
Variable odeint : integrator.

(** Line 98 for an arbitrary initial vector, and for the literal [y0]. *)
Definition sol_from (y : list R) : result (list (list R)) :=
  odeint beta_func y t.

Definition sol : result (list (list R)) := sol_from y0.
End Driver.

(** An integrator that accepts whatever it is given: it never calls the
    derivative function and reports the initial state as the trajectory. *)
Definition odeint_accept : integrator :=
  fun _ y _ => Ok [y].


(** ** Reference formulas

    The definitions of this part follow the wording of the specification,
    not the source; the theorems below compare them with the code. *)

(** The one-loop coefficients [{33/5, 1, 3}]. *)
Definition b_spec : list R := [33 / 5; 1; 3].

(** The gauge couplings and the Yukawa subtraction terms by index. *)
Definition g_at (c : couplings) (i : nat) : R := nth i [g1 c; g2 c; g3 c] 0.
Definition y_contrib_at (c : couplings) (i : nat) : R :=
  nth i [y_contrib1 c; y_contrib2 c; y_contrib3 c] 0.

(** [g_i^3/(16 pi^2) b_i + g_i^3/(16 pi^2)^2 sum_j B_ij g_j^2
     - g_i^3/(16 pi^2)^2 (Yukawa trace contribution)_i], rows and columns
    counted from 0. *)
Definition beta_g_spec (i : nat) (c : couplings) : R :=
  g_at c i ^ 3 / (16 * PI ^ 2) * nth i b_spec 0
  + g_at c i ^ 3 / (16 * PI ^ 2) ^ 2
    * (Bij i 0 * g_at c 0 ^ 2 + Bij i 1 * g_at c 1 ^ 2 + Bij i 2 * g_at c 2 ^ 2)
  - g_at c i ^ 3 / (16 * PI ^ 2) ^ 2 * y_contrib_at c i.

(** The structural formula of the down sector (that of [beta_yb]) and of
    the lepton sector (that of [beta_ytau]) with the self-coupling as an
    argument. *)
Definition down_sector_formula (c : couplings) (self : R) : R :=
  (1 / (16 * PI ^ 2)) * self
  * (6 * self ^ 2 + yt c ^ 2 + tr_Ye2 c + 3 * tr_Yd2 c
     - (16 / 3 * g3 c ^ 2 + 3 * g2 c ^ 2 + 1 / 15 * g1 c ^ 2)).

Definition lepton_sector_formula (c : couplings) (self : R) : R :=
  (1 / (16 * PI ^ 2)) * self
  * (4 * self ^ 2 + tr_Ye2 c + 3 * tr_Yd2 c
     - (3 * g2 c ^ 2 + 9 / 5 * g1 c ^ 2)).

(** A valid initial state: ten components, positive gauge couplings. *)
Definition valid_initial_state (y : list R) : Prop :=
  length y = 10%nat /\ 0 < nth 0 y 0 /\ 0 < nth 1 y 0 /\ 0 < nth 2 y 0.

(** A driver rejects [y] before integration begins when its outcome for
    [y] is one error, whatever the integrator is: the integrator has no
    part in it. *)
Definition rejected_before_integration
    (run : integrator -> list R -> result (list (list R))) (y : list R) : Prop :=
  exists e : exn, forall odeint : integrator, run odeint y = Err e.

(** A vector whose only non-zero Yukawa entry is [ys = 1]. *)
Definition c_strange : couplings := mkCouplings 1 1 1 0 0 0 1 0 0 0.

(** A vector with all Yukawa entries 0, and one with [yd] and [ye] alone
    non-zero among them. *)
Definition c_gauge_only : couplings := mkCouplings 1 2 3 0 0 0 0 0 0 0.
Definition c_yd_ye_only : couplings := mkCouplings 1 2 3 0 0 0 0 5 0 7.

(** Two invalid initial vectors: a negative [g1], and three components. *)
Definition y_negative_g1 : list R := [-1; 1; 1; 0; 0; 0; 0; 0; 0; 0].
Definition y_short : list R := [1; 1; 1].

(** ** Derivative expressions and transformations of a coupling vector

    The three gauge derivatives and the five Yukawa derivatives that the
    body of [beta_func] writes as arithmetic expressions, in source order. *)
Definition gauge_derivs (c : couplings) : list R :=
  [beta_g1 c; beta_g2 c; beta_g3 c].

Definition yukawa_derivs (c : couplings) : list R :=
  [beta_yt c; beta_yb c; beta_ytau c; beta_ys c; beta_ymu c].

(** [flip i c] changes the sign of component [i] (counted from 0 in the
    order of the vector) and keeps the others. *)
Definition sgn (i j : nat) : R := if Nat.eqb i j then -1 else 1.

Definition flip (i : nat) (c : couplings) : couplings :=
  mkCouplings (sgn i 0 * g1 c) (sgn i 1 * g2 c) (sgn i 2 * g3 c)
              (sgn i 3 * yt c) (sgn i 4 * yb c) (sgn i 5 * ytau c)
              (sgn i 6 * ys c) (sgn i 7 * yd c) (sgn i 8 * ymu c)
              (sgn i 9 * ye c).

(** ** The binary64 reading

    The constants of lines 16-22 and the traces of lines 38-40 with the
    arithmetic of the machine: primitive binary64 floats, every operation
    correctly rounded, sums taken from left to right as Python does.
    A decimal literal is the nearest binary64 number, [np.pi] is the
    binary64 number nearest to pi, and [x ** 2] is the rounded product
    [x * x]. *)

Module F64.

Definition pi : float := 3.141592653589793%float.

Definition alpha1_MZ : float := 0.016887%float.
Definition alpha2_MZ : float := 0.03378%float.
Definition alpha3_MZ : float := 0.1184%float.

Definition g1_MZ : float := PrimFloat.sqrt (4 * pi * alpha1_MZ)%float.
Definition g2_MZ : float := PrimFloat.sqrt (4 * pi * alpha2_MZ)%float.
Definition g3_MZ : float := PrimFloat.sqrt (4 * pi * alpha3_MZ)%float.

Record couplings : Type := mkCouplings {
  g1 : float; g2 : float; g3 : float;
  yt : float; yb : float; ytau : float;
  ys : float; yd : float; ymu : float; ye : float
}.

Definition tr_Yu2 (c : couplings) : float := (yt c * yt c)%float.
Definition tr_Yd2 (c : couplings) : float :=
  (yb c * yb c + ys c * ys c + yd c * yd c)%float.
Definition tr_Ye2 (c : couplings) : float :=
  (ytau c * ytau c + ymu c * ymu c + ye c * ye c)%float.

(** The conversion as one function of the measured strength, and the way
    back of the comment on line 16, [alpha = g^2 / (4 pi)]. *)
Definition g_of_alpha (alpha : float) : float :=
  PrimFloat.sqrt (4 * pi * alpha)%float.

Definition alpha_of_g (g : float) : float := (g * g / (4 * pi))%float.

(** A coupling vector with [(yb, ys, yd) = (ytau, ymu, ye)
    = (0.75, 1e-8, 2^-27)], and the same vector with [ys], [yd] and
    [ymu], [ye] exchanged. *)
Definition c_small : couplings :=
  mkCouplings 1 1 1 0 0.75 0.75 1e-8 0x1p-27 1e-8 0x1p-27.

Definition c_small_swapped : couplings :=
  mkCouplings 1 1 1 0 0.75 0.75 0x1p-27 1e-8 0x1p-27 1e-8.

End F64.

(** * Properties *)

(** ** Basic facts *)

Lemma sixteen_pi2_pos : 0 < 16 * PI ^ 2.
Proof. pose proof PI_RGT_0 as H. nra. Qed.

Lemma sixteen_pi2_neq : 16 * PI ^ 2 <> 0.
Proof. pose proof sixteen_pi2_pos. lra. Qed.

Lemma unpack_y0 : unpack y0 = Ok c0.
Proof. reflexivity. Qed.

Lemma unpack_length (y : list R) (c : couplings) :
  unpack y = Ok c -> length y = 10%nat.
Proof.
  do 10 (destruct y as [|? y]; [discriminate|]).
  destruct y; [reflexivity | discriminate].
Qed.

Lemma unpack_wrong_length (y : list R) :
  length y <> 10%nat -> unpack y = Err ValueError.
Proof.
  intros H.
  do 10 (destruct y as [|? y]; [reflexivity|]).
  destruct y; [exfalso; apply H; reflexivity | reflexivity].
Qed.

Lemma unpack_ten (y : list R) :
  length y = 10%nat ->
  exists c, unpack y = Ok c /\
    y = [g1 c; g2 c; g3 c; yt c; yb c; ytau c; ys c; yd c; ymu c; ye c].
Proof.
  intros H.
  do 10 (destruct y as [|? y]; [discriminate|]).
  destruct y; [|discriminate].
  eexists. split; reflexivity.
Qed.

(** Once the unpacking has succeeded, line 81 raises. *)
Lemma beta_func_unpacked (y : list R) (c : couplings) (s : R) :
  unpack y = Ok c -> beta_func y s = Err AttributeError.
Proof. intros H. unfold beta_func. rewrite H. reflexivity. Qed.

Lemma beta_func_ten (y : list R) (s : R) :
  length y = 10%nat -> beta_func y s = Err AttributeError.
Proof.
  intros H. destruct (unpack_ten y H) as [c [Hc _]].
  exact (beta_func_unpacked y c s Hc).
Qed.

Lemma beta_func_wrong_length (y : list R) (s : R) :
  length y <> 10%nat -> beta_func y s = Err ValueError.
Proof.
  intros H. unfold beta_func. rewrite (unpack_wrong_length y H). reflexivity.
Qed.

(** ** Gauge derivatives against the reference formula *)

Lemma beta_g1_spec (c : couplings) : beta_g1 c = beta_g_spec 0 c.
Proof. reflexivity. Qed.

Lemma beta_g3_spec (c : couplings) : beta_g3 c = beta_g_spec 2 c.
Proof. reflexivity. Qed.

(** Line 63 reads [B[1,1]] where the sum over [j] has [B[1,2]]: the code
    exceeds the reference formula by [(25 - 24) g2^3 g3^2 / (16 pi^2)^2]. *)
Lemma beta_g2_gap (c : couplings) :
  beta_g2 c - beta_g_spec 1 c = g2 c ^ 3 * g3 c ^ 2 / (16 * PI ^ 2) ^ 2.
Proof.
  unfold beta_g2, beta_g_spec, g_at, y_contrib_at, b_spec, b2, Bij, B.
  cbn [nth]. field. exact PI_neq0.
Qed.

Lemma g_MZ_pos (alpha : R) : 0 < alpha -> 0 < sqrt (4 * PI * alpha).
Proof.
  intros H. apply sqrt_lt_R0. pose proof PI_RGT_0. nra.
Qed.

Lemma g2_MZ_pos : 0 < g2_MZ.
Proof. apply g_MZ_pos. unfold alpha2_MZ. lra. Qed.

Lemma g3_MZ_pos : 0 < g3_MZ.
Proof. apply g_MZ_pos. unfold alpha3_MZ. lra. Qed.

(** C1.  On the program's own initial vector the derivative of [g2]
    computed on line 63 differs from
    [g2^3/(16 pi^2) b_2 + g2^3/(16 pi^2)^2 sum_j B[1][j] g_j^2 - ...]:
    the code puts [B[1,1] = 25] on [g3^2], the formula has [B[1,2] = 24],
    and the two values differ by [g2^3 g3^2 / (16 pi^2)^2], which is not 0. *)
Theorem beta_g2_uses_B11_on_g3 :
  unpack y0 = Ok c0 /\
  Bij 1 1 = 25 /\ Bij 1 2 = 24 /\
  beta_g2 c0 - beta_g_spec 1 c0 = g2_MZ ^ 3 * g3_MZ ^ 2 / (16 * PI ^ 2) ^ 2 /\
  beta_g2 c0 <> beta_g_spec 1 c0.
Proof.
  split; [reflexivity|]. split; [reflexivity|]. split; [reflexivity|].
  pose proof (beta_g2_gap c0) as G. cbn [g2 g3 c0] in G.
  split; [exact G|].
  intros E. rewrite E, Rminus_diag in G.
  pose proof g2_MZ_pos as P2. pose proof g3_MZ_pos as P3.
  pose proof sixteen_pi2_pos as K.
  assert (0 < g2_MZ ^ 3 * g3_MZ ^ 2 / (16 * PI ^ 2) ^ 2); [|lra].
  apply Rdiv_lt_0_compat.
  - apply Rmult_lt_0_compat; apply pow_lt; assumption.
  - apply pow_lt; assumption.
Qed.

(** ** Evaluating beta_func *)

(** C2.  Evaluating [beta_func] on the initial vector [y0] at the first
    sample point raises AttributeError (line 81 asks a float for its
    [replace] method), and it does so on every 10-component vector at every
    scale: no derivative vector is returned. *)
Theorem beta_func_raises_AttributeError :
  beta_func y0 1 = Err AttributeError /\
  forall a0 a1 a2 a3 a4 a5 a6 a7 a8 a9 s : R,
    beta_func [a0; a1; a2; a3; a4; a5; a6; a7; a8; a9] s = Err AttributeError.
Proof. split; reflexivity. Qed.

(** C8.  The initial vector has ten components in the order
    [g1, g2, g3, yt, yb, ytau, ys, yd, ymu, ye], and unpacking it binds
    them in that order; but [beta_func] returns no 10-component derivative
    vector for it: the call ends in AttributeError before line 89. *)
Theorem y0_ten_components_no_derivative :
  length y0 = 10%nat /\
  unpack y0 = Ok c0 /\
  y0 = [g1 c0; g2 c0; g3 c0; yt c0; yb c0; ytau c0; ys c0; yd c0; ymu c0; ye c0] /\
  (forall s : R, beta_func y0 s = Err AttributeError) /\
  (forall s : R, ~ exists dy : list R, beta_func y0 s = Ok dy).
Proof.
  repeat split; try reflexivity.
  intros s [dy H]. discriminate H.
Qed.

(** ** Light-generation Yukawa derivatives *)

Lemma beta_yb_sector (c : couplings) :
  beta_yb c = down_sector_formula c (yb c).
Proof. reflexivity. Qed.

Lemma beta_ytau_sector (c : couplings) :
  beta_ytau c = lepton_sector_formula c (ytau c).
Proof. reflexivity. Qed.

(** C3, as stated, fails: with [ys = 1] and the other Yukawa entries 0 the
    derivative of [ys] on line 78 is not the down-sector formula of
    [beta_yb] with [ys] as the self-coupling (the formula has the self term
    [6 ys^2], line 78 has not). *)
Lemma beta_ys_not_sector_formula :
  beta_ys c_strange <> down_sector_formula c_strange (ys c_strange).
Proof.
  unfold beta_ys, down_sector_formula, tr_Ye2, tr_Yd2, c_strange.
  cbn [g1 g2 g3 yt yb ytau ys yd ymu ye].
  intros E.
  pose proof sixteen_pi2_pos as K.
  assert (H : 1 / (16 * PI ^ 2) * 6 = 0) by lra.
  assert (0 < 1 / (16 * PI ^ 2)) by (apply Rdiv_lt_0_compat; lra).
  lra.
Qed.

(** C3, amended.  The derivative of [ys] (line 78) is the down-sector
    formula of [beta_yb] taken at [ys] with the self term [6 ys^2] and the
    [yt^2] term left out; the derivative of [ymu] (line 84) is the lepton
    formula of [beta_ytau] taken at [ymu] with the self term [4 ymu^2] left
    out. *)
Theorem light_yukawa_sector_formula (c : couplings) :
  beta_yb c = down_sector_formula c (yb c) /\
  beta_ytau c = lepton_sector_formula c (ytau c) /\
  beta_ys c
    = down_sector_formula c (ys c)
      - (1 / (16 * PI ^ 2)) * ys c * (6 * ys c ^ 2 + yt c ^ 2) /\
  beta_ymu c
    = lepton_sector_formula c (ymu c)
      - (1 / (16 * PI ^ 2)) * ymu c * (4 * ymu c ^ 2).
Proof.
  split; [reflexivity|]. split; [reflexivity|].
  unfold beta_ys, beta_ymu, down_sector_formula, lepton_sector_formula.
  split; field; exact PI_neq0.
Qed.

(** ** Zero Yukawa couplings *)

(** C6.  When the seven Yukawa entries are 0 the three traces are 0, the
    three Yukawa subtraction terms are 0, and each gauge derivative is its
    gauge part alone (as the code writes that part). *)
Theorem zero_yukawa_gauge_only (c : couplings) :
  yt c = 0 -> yb c = 0 -> ytau c = 0 ->
  ys c = 0 -> yd c = 0 -> ymu c = 0 -> ye c = 0 ->
  (tr_Yu2 c = 0 /\ tr_Yd2 c = 0 /\ tr_Ye2 c = 0) /\
  (y_contrib1 c = 0 /\ y_contrib2 c = 0 /\ y_contrib3 c = 0) /\
  beta_g1 c
    = g1 c ^ 3 / (16 * PI ^ 2) * b1
      + g1 c ^ 3 / (16 * PI ^ 2) ^ 2
        * (Bij 0 0 * g1 c ^ 2 + Bij 0 1 * g2 c ^ 2 + Bij 0 2 * g3 c ^ 2) /\
  beta_g2 c
    = g2 c ^ 3 / (16 * PI ^ 2) * b2
      + g2 c ^ 3 / (16 * PI ^ 2) ^ 2
        * (Bij 1 0 * g1 c ^ 2 + Bij 1 1 * g2 c ^ 2 + Bij 1 1 * g3 c ^ 2) /\
  beta_g3 c
    = g3 c ^ 3 / (16 * PI ^ 2) * b3
      + g3 c ^ 3 / (16 * PI ^ 2) ^ 2
        * (Bij 2 0 * g1 c ^ 2 + Bij 2 1 * g2 c ^ 2 + Bij 2 2 * g3 c ^ 2).
Proof.
  intros Ht Hb Htau Hs Hd Hmu He.
  assert (Tu : tr_Yu2 c = 0) by (unfold tr_Yu2; rewrite Ht; ring).
  assert (Td : tr_Yd2 c = 0) by (unfold tr_Yd2; rewrite Hb, Hs, Hd; ring).
  assert (Te : tr_Ye2 c = 0) by (unfold tr_Ye2; rewrite Htau, Hmu, He; ring).
  assert (C1 : y_contrib1 c = 0) by (unfold y_contrib1; rewrite Tu, Td, Te; lra).
  assert (C2 : y_contrib2 c = 0) by (unfold y_contrib2; rewrite Tu, Td, Te; lra).
  assert (C3 : y_contrib3 c = 0) by (unfold y_contrib3; rewrite Tu, Td; lra).
  repeat split; try assumption.
  - unfold beta_g1. rewrite C1. ring.
  - unfold beta_g2. rewrite C2. ring.
  - unfold beta_g3. rewrite C3. ring.
Qed.

Lemma zero_yukawa_gauge_only_witness :
  tr_Yu2 c_gauge_only = 0 /\ y_contrib2 c_gauge_only = 0 /\
  beta_g2 c_gauge_only
    = 2 ^ 3 / (16 * PI ^ 2) * b2
      + 2 ^ 3 / (16 * PI ^ 2) ^ 2
        * (Bij 1 0 * 1 ^ 2 + Bij 1 1 * 2 ^ 2 + Bij 1 1 * 3 ^ 2).
Proof.
  destruct (zero_yukawa_gauge_only c_gauge_only) as [[Tu _] [[_ [C2 _]] [_ [G2 _]]]];
    try reflexivity.
  split; [exact Tu|]. split; [exact C2|]. exact G2.
Defined.

(** ** Conversion of the measured coupling strengths (binary64) *)

(** C7, as stated, fails: in binary64 the way back from [g3_MZ] does not
    reproduce [alpha3_MZ]; [g3_MZ ** 2 / (4 pi)] is 0.11839999999999999. *)
Lemma alpha3_not_reproduced :
  F64.alpha_of_g F64.g3_MZ <> F64.alpha3_MZ.
Proof.
  intros H.
  apply (f_equal (fun x => PrimFloat.eqb x F64.alpha3_MZ)) in H.
  vm_compute in H. discriminate H.
Qed.

(** C7, amended.  Each initial gauge coupling is the one function
    [sqrt (4 pi alpha)] of its own measured strength, in binary64; the way
    back [g ** 2 / (4 pi)] reproduces [alpha1_MZ] and [alpha2_MZ] exactly
    and [alpha3_MZ] to one unit in the last place: it gives the binary64
    number next below [alpha3_MZ]. *)
Theorem alpha_g_roundtrip_binary64 :
  (F64.g1_MZ = F64.g_of_alpha F64.alpha1_MZ /\
   F64.g2_MZ = F64.g_of_alpha F64.alpha2_MZ /\
   F64.g3_MZ = F64.g_of_alpha F64.alpha3_MZ) /\
  F64.alpha_of_g F64.g1_MZ = F64.alpha1_MZ /\
  F64.alpha_of_g F64.g2_MZ = F64.alpha2_MZ /\
  F64.alpha_of_g F64.g3_MZ = next_down F64.alpha3_MZ.
Proof.
  split; [repeat split|].
  repeat split; vm_compute; reflexivity.
Qed.

(** ** Symmetry of the traces (binary64) *)

Lemma SFadd_comm (prec emax : Z) (x y : spec_float) :
  SFadd prec emax x y = SFadd prec emax y x.
Proof.
  destruct x as [sx|sx| |sx mx ex], y as [sy|sy| |sy my ey];
    try reflexivity; try (destruct sx, sy; reflexivity).
  cbn. rewrite Z.min_comm, Z.add_comm. reflexivity.
Qed.

(** Binary64 addition is commutative. *)
Lemma float_add_comm (x y : float) : (x + y)%float = (y + x)%float.
Proof.
  apply Prim2SF_inj. rewrite !add_spec. apply SFadd_comm.
Qed.

(** C9, as stated, fails: the sums of lines 39 and 40 run from left to
    right, and with [(yb, ys, yd) = (0.75, 1e-8, 2^-27)] exchanging [ys]
    and [yd] changes the last bit of [tr_Yd2] (0.56250000000000022 against
    0.56250000000000011); the same values in the lepton sector do it for
    [tr_Ye2] when [ymu] and [ye] are exchanged. *)
Lemma traces_swap_changes_last_bit :
  F64.tr_Yd2 F64.c_small_swapped <> F64.tr_Yd2 F64.c_small /\
  F64.tr_Ye2 F64.c_small_swapped <> F64.tr_Ye2 F64.c_small.
Proof.
  split; intros H.
  - apply (f_equal (fun x => PrimFloat.eqb x (F64.tr_Yd2 F64.c_small))) in H.
    vm_compute in H. discriminate H.
  - apply (f_equal (fun x => PrimFloat.eqb x (F64.tr_Ye2 F64.c_small))) in H.
    vm_compute in H. discriminate H.
Qed.

(** C9, amended.  For every coupling vector, exchanging the entries of
    [yb] and [ys] leaves [tr_Yd2] unchanged, and exchanging those of
    [ytau] and [ymu] leaves [tr_Ye2] unchanged, bit for bit: these are the
    two operands of the first addition, and binary64 addition is
    commutative. *)
Theorem traces_first_pair_swap_invariant
    (a0 a1 a2 a3 a4 a5 a6 a7 a8 a9 : float) :
  F64.tr_Yd2 (F64.mkCouplings a0 a1 a2 a3 a6 a5 a4 a7 a8 a9)
    = F64.tr_Yd2 (F64.mkCouplings a0 a1 a2 a3 a4 a5 a6 a7 a8 a9) /\
  F64.tr_Ye2 (F64.mkCouplings a0 a1 a2 a3 a4 a8 a6 a7 a5 a9)
    = F64.tr_Ye2 (F64.mkCouplings a0 a1 a2 a3 a4 a5 a6 a7 a8 a9).
Proof.
  unfold F64.tr_Yd2, F64.tr_Ye2.
  cbn [F64.yb F64.ys F64.yd F64.ytau F64.ymu F64.ye].
  split.
  - rewrite (float_add_comm (a6 * a6) (a4 * a4)). reflexivity.
  - rewrite (float_add_comm (a8 * a8) (a5 * a5)). reflexivity.
Qed.

(** ** Zero couplings stay zero *)

(** C10.  Each of the derivatives of [yt], [yb], [ytau], [ys], [ymu] is
    the coupling itself times a factor, so it is 0 when the coupling is 0. *)
Theorem yukawa_zero_fixed (c : couplings) :
  (beta_yt c
     = yt c * ((1 / (16 * PI ^ 2))
               * (6 * yt c ^ 2 + yb c ^ 2 + 3 * tr_Yu2 c + tr_Yd2 c
                  - (16 / 3 * g3 c ^ 2 + 3 * g2 c ^ 2 + 13 / 15 * g1 c ^ 2))) /\
   beta_yb c
     = yb c * ((1 / (16 * PI ^ 2))
               * (6 * yb c ^ 2 + yt c ^ 2 + tr_Ye2 c + 3 * tr_Yd2 c
                  - (16 / 3 * g3 c ^ 2 + 3 * g2 c ^ 2 + 1 / 15 * g1 c ^ 2))) /\
   beta_ytau c
     = ytau c * ((1 / (16 * PI ^ 2))
                 * (4 * ytau c ^ 2 + tr_Ye2 c + 3 * tr_Yd2 c
                    - (3 * g2 c ^ 2 + 9 / 5 * g1 c ^ 2))) /\
   beta_ys c
     = ys c * ((1 / (16 * PI ^ 2))
               * (tr_Ye2 c + 3 * tr_Yd2 c
                  - (16 / 3 * g3 c ^ 2 + 3 * g2 c ^ 2 + 1 / 15 * g1 c ^ 2))) /\
   beta_ymu c
     = ymu c * ((1 / (16 * PI ^ 2))
                * (tr_Ye2 c + 3 * tr_Yd2 c
                   - (3 * g2 c ^ 2 + 9 / 5 * g1 c ^ 2)))) /\
  (yt c = 0 -> beta_yt c = 0) /\
  (yb c = 0 -> beta_yb c = 0) /\
  (ytau c = 0 -> beta_ytau c = 0) /\
  (ys c = 0 -> beta_ys c = 0) /\
  (ymu c = 0 -> beta_ymu c = 0).
Proof.
  split.
  - unfold beta_yt, beta_yb, beta_ytau, beta_ys, beta_ymu.
    repeat split; ring.
  - unfold beta_yt, beta_yb, beta_ytau, beta_ys, beta_ymu.
    repeat split; intros H; rewrite H; ring.
Qed.

Lemma yukawa_zero_fixed_witness :
  beta_yt c_yd_ye_only = 0 /\ beta_yb c_yd_ye_only = 0 /\
  beta_ytau c_yd_ye_only = 0 /\
  beta_ys c_yd_ye_only = 0 /\ beta_ymu c_yd_ye_only = 0.
Proof.
  destruct (yukawa_zero_fixed c_yd_ye_only) as [_ [Ht [Hb [Htau [Hs Hmu]]]]].
  split; [apply Ht; reflexivity|].
  split; [apply Hb; reflexivity|].
  split; [apply Htau; reflexivity|].
  split; [apply Hs; reflexivity | apply Hmu; reflexivity].
Defined.

(** ** The sample points *)

Lemma linspace_length (a b : R) (d : nat) :
  length (linspace a b (S (S d))) = S (S d).
Proof.
  unfold linspace. rewrite length_app, length_map, length_seq.
  cbn [length]. lia.
Qed.

Lemma linspace_nth (a b : R) (d i : nat) :
  (i <= S d)%nat ->
  nth i (linspace a b (S (S d))) 0 = INR i * ((b - a) / INR (S d)) + a.
Proof.
  intros Hi. unfold linspace.
  set (f := fun k : nat => INR k * ((b - a) / INR (S d)) + a).
  destruct (Nat.eq_dec i (S d)) as [E|N].
  - rewrite app_nth2; rewrite length_map, length_seq; [|lia].
    subst i. rewrite Nat.sub_diag. cbn [nth].
    field. apply not_0_INR. discriminate.
  - rewrite app_nth1 by (rewrite length_map, length_seq; lia).
    rewrite (nth_indep _ 0 (f O)) by (rewrite length_map, length_seq; lia).
    rewrite map_nth, seq_nth by lia. reflexivity.
Qed.

Lemma logspace_length (a b : R) (d : nat) :
  length (logspace a b (S (S d))) = S (S d).
Proof. unfold logspace. rewrite length_map. apply linspace_length. Qed.

Lemma logspace_nth (a b : R) (d i : nat) :
  (i <= S d)%nat ->
  nth i (logspace a b (S (S d))) 0
    = Rpower 10 (INR i * ((b - a) / INR (S d)) + a).
Proof.
  intros Hi. unfold logspace.
  rewrite (nth_indep _ 0 (Rpower 10 0))
    by (rewrite length_map, linspace_length; lia).
  rewrite map_nth, linspace_nth by exact Hi. reflexivity.
Qed.

Lemma logspace_last (a b : R) (d : nat) :
  last (logspace a b (S (S d))) 0 = Rpower 10 b.
Proof.
  unfold logspace, linspace. rewrite map_app. cbn [map]. apply last_last.
Qed.

Lemma logspace_increasing (a b : R) (d : nat) :
  a < b -> increasing (logspace a b (S (S d))).
Proof.
  intros Hab i j [Hij Hj]. rewrite logspace_length in Hj.
  rewrite !logspace_nth by lia.
  apply Rpower_lt; [lra|].
  assert (Hd : 0 < INR (S d)) by (apply lt_0_INR; lia).
  assert (Hs : 0 < (b - a) / INR (S d)) by (apply Rdiv_lt_0_compat; lra).
  apply lt_INR in Hij. nra.
Qed.

Lemma log_range_pos : 0 < ln (MGUT / MZ).
Proof.
  rewrite <- ln_1. apply ln_increasing; [lra|].
  unfold MGUT, MZ. lra.
Qed.

Lemma ln_10_gt_1 : 1 < ln 10.
Proof.
  rewrite <- (ln_exp 1) at 1.
  apply ln_increasing; [apply exp_pos|].
  pose proof exp_le_3. lra.
Qed.

Lemma Rpower_10_gt (x : R) : 0 < x -> x < Rpower 10 x.
Proof.
  intros Hx. unfold Rpower.
  pose proof ln_10_gt_1 as L.
  pose proof (exp_ineq1_le (x * ln 10)) as E.
  nra.
Qed.

Lemma t_length : length t = 1000%nat.
Proof. exact (logspace_length 0 (ln (MGUT / MZ)) 998). Qed.

Lemma t_increasing : increasing t.
Proof. exact (logspace_increasing 0 _ 998 log_range_pos). Qed.

Lemma t_first : nth 0 t 0 = 1.
Proof.
  unfold t. change 1000%nat with (S (S 998)).
  rewrite logspace_nth by lia.
  replace (INR 0 * ((ln (MGUT / MZ) - 0) / INR 999) + 0) with 0
    by (cbn [INR]; lra).
  apply Rpower_O. lra.
Qed.

(** C4.  The sample points of line 95 are 1000 strictly increasing
    values, but they run from [10^0 = 1] to [10^ln(MGUT/MZ)], not from 0 to
    [ln(MGUT/MZ)]: [np.logspace] takes its two bounds as exponents of 10. *)
Theorem t_runs_from_1_to_power :
  length t = 1000%nat /\
  increasing t /\
  nth 0 t 0 = 1 /\ nth 0 t 0 <> 0 /\
  last t 0 = Rpower 10 (ln (MGUT / MZ)) /\
  last t 0 <> ln (MGUT / MZ).
Proof.
  split; [exact t_length|]. split; [exact t_increasing|].
  split; [exact t_first|]. split; [rewrite t_first; lra|].
  assert (L : last t 0 = Rpower 10 (ln (MGUT / MZ)))
    by exact (logspace_last 0 _ 998).
  split; [exact L|].
  rewrite L. pose proof (Rpower_10_gt _ log_range_pos). lra.
Qed.

(** ** The driver and the initial vector *)

Lemma y_negative_g1_invalid : ~ valid_initial_state y_negative_g1.
Proof. intros [_ [H _]]. cbn in H. lra. Qed.

Lemma y_short_invalid : ~ valid_initial_state y_short.
Proof. intros [H _]. discriminate H. Qed.

Lemma accepted_not_rejected (y : list R) :
  ~ rejected_before_integration sol_from y.
Proof.
  intros [e H]. specialize (H odeint_accept). discriminate H.
Qed.

(** C5, as stated, fails: the vector [y_negative_g1], invalid by its
    negative [g1], and the vector [y_short], invalid by its length, are
    not rejected before integration begins; handed an integrator that
    accepts them, the driver returns a trajectory for each. *)
Lemma invalid_vectors_reach_the_integrator :
  (~ valid_initial_state y_negative_g1 /\
   sol_from odeint_accept y_negative_g1 = Ok [y_negative_g1] /\
   ~ rejected_before_integration sol_from y_negative_g1) /\
  (~ valid_initial_state y_short /\
   sol_from odeint_accept y_short = Ok [y_short] /\
   ~ rejected_before_integration sol_from y_short).
Proof.
  split; (split; [|split; [reflexivity | apply accepted_not_rejected]]).
  - exact y_negative_g1_invalid.
  - exact y_short_invalid.
Qed.

(** C5, amended.  No initial vector, valid or not, is rejected before
    integration begins: the driver hands it unchanged to the integrator,
    the outcome of the run is the outcome of the integrator on it, and no
    error arises that the integrator has no part in. *)
Theorem no_rejection_before_integration (y : list R) :
  (forall odeint : integrator, sol_from odeint y = odeint beta_func y t) /\
  sol_from odeint_accept y = Ok [y] /\
  ~ rejected_before_integration sol_from y.
Proof.
  split; [reflexivity|]. split; [reflexivity|].
  apply accepted_not_rejected.
Qed.

(** ** Further properties of beta_func *)

Ltac unfold_betas :=
  unfold gauge_derivs, yukawa_derivs,
    beta_g1, beta_g2, beta_g3, beta_yt, beta_yb, beta_ytau, beta_ys, beta_ymu,
    y_contrib1, y_contrib2, y_contrib3, tr_Yu2, tr_Yd2, tr_Ye2,
    b1, b2, b3, Bij, B;
  cbn [nth].

Ltac solve_betas :=
  unfold_betas; unfold flip, sgn;
  cbn [Nat.eqb g1 g2 g3 yt yb ytau ys yd ymu ye];
  repeat (f_equal; try (field; exact PI_neq0)).

(** X2.  Changing the sign of one gauge coupling changes the sign of its
    own derivative and leaves the other seven derivative expressions as
    they are: each [g_i] enters its own derivative through [g_i^3] and
    everything else through [g_i^2]. *)
Theorem gauge_sign_flip (c : couplings) :
  (gauge_derivs (flip 0 c) = [- beta_g1 c; beta_g2 c; beta_g3 c] /\
   yukawa_derivs (flip 0 c) = yukawa_derivs c) /\
  (gauge_derivs (flip 1 c) = [beta_g1 c; - beta_g2 c; beta_g3 c] /\
   yukawa_derivs (flip 1 c) = yukawa_derivs c) /\
  (gauge_derivs (flip 2 c) = [beta_g1 c; beta_g2 c; - beta_g3 c] /\
   yukawa_derivs (flip 2 c) = yukawa_derivs c).
Proof. repeat split; solve_betas. Qed.

(** X3.  Changing the sign of one of [yt], [yb], [ytau], [ys], [ymu]
    changes the sign of its own derivative and leaves the gauge
    derivatives and the other Yukawa derivatives as they are; changing the
    sign of [yd] or [ye], which occur in the traces only, changes none of
    the eight expressions. *)
Theorem yukawa_sign_flip (c : couplings) :
  (forall i : nat, (3 <= i <= 9)%nat ->
     gauge_derivs (flip i c) = gauge_derivs c) /\
  yukawa_derivs (flip 3 c)
    = [- beta_yt c; beta_yb c; beta_ytau c; beta_ys c; beta_ymu c] /\
  yukawa_derivs (flip 4 c)
    = [beta_yt c; - beta_yb c; beta_ytau c; beta_ys c; beta_ymu c] /\
  yukawa_derivs (flip 5 c)
    = [beta_yt c; beta_yb c; - beta_ytau c; beta_ys c; beta_ymu c] /\
  yukawa_derivs (flip 6 c)
    = [beta_yt c; beta_yb c; beta_ytau c; - beta_ys c; beta_ymu c] /\
  yukawa_derivs (flip 8 c)
    = [beta_yt c; beta_yb c; beta_ytau c; beta_ys c; - beta_ymu c] /\
  yukawa_derivs (flip 7 c) = yukawa_derivs c /\
  yukawa_derivs (flip 9 c) = yukawa_derivs c.
Proof.
  split.
  - intros i [Hlo Hhi].
    do 3 (destruct i as [|i]; [lia|]).
    do 7 (destruct i as [|i]; [solve_betas|]).
    lia.
  - repeat split; solve_betas.
Qed.

Lemma yukawa_sign_flip_witness :
  gauge_derivs (flip 7 c_strange) = gauge_derivs c_strange.
Proof.
  destruct (yukawa_sign_flip c_strange) as [H _].
  apply (H 7%nat). lia.
Defined.

(** X5.  A gauge coupling that is 0 has derivative 0: each gauge
    derivative carries the factor [g_i^3] in all three of its terms. *)
Theorem gauge_zero_fixed (c : couplings) :
  (g1 c = 0 -> beta_g1 c = 0) /\
  (g2 c = 0 -> beta_g2 c = 0) /\
  (g3 c = 0 -> beta_g3 c = 0).
Proof.
  unfold beta_g1, beta_g2, beta_g3.
  repeat split; intros H; rewrite H; field; exact PI_neq0.
Qed.

Lemma gauge_zero_fixed_witness :
  beta_g1 (mkCouplings 0 0 0 1 1 1 1 1 1 1) = 0 /\
  beta_g2 (mkCouplings 0 0 0 1 1 1 1 1 1 1) = 0 /\
  beta_g3 (mkCouplings 0 0 0 1 1 1 1 1 1 1) = 0.
Proof.
  destruct (gauge_zero_fixed (mkCouplings 0 0 0 1 1 1 1 1 1 1))
    as [H1 [H2 H3]].
  split; [apply H1; reflexivity|].
  split; [apply H2; reflexivity | apply H3; reflexivity].
Defined.

Lemma traces_nonneg (c : couplings) :
  0 <= tr_Yu2 c /\ 0 <= tr_Yd2 c /\ 0 <= tr_Ye2 c.
Proof.
  unfold tr_Yu2, tr_Yd2, tr_Ye2.
  pose proof (pow2_ge_0 (yt c)). pose proof (pow2_ge_0 (yb c)).
  pose proof (pow2_ge_0 (ys c)). pose proof (pow2_ge_0 (yd c)).
  pose proof (pow2_ge_0 (ytau c)). pose proof (pow2_ge_0 (ymu c)).
  pose proof (pow2_ge_0 (ye c)).
  repeat split; lra.
Qed.

Lemma y_contribs_nonneg (c : couplings) :
  0 <= y_contrib1 c /\ 0 <= y_contrib2 c /\ 0 <= y_contrib3 c.
Proof.
  destruct (traces_nonneg c) as [Hu [Hd He]].
  unfold y_contrib1, y_contrib2, y_contrib3. repeat split; lra.
Qed.

Lemma two_loop_factor_nonneg (g : R) :
  0 <= g -> 0 <= g ^ 3 / (16 * PI ^ 2) ^ 2.
Proof.
  intros Hg. apply Rmult_le_pos.
  - apply pow_le. exact Hg.
  - left. apply Rinv_0_lt_compat, pow_lt, sixteen_pi2_pos.
Qed.

(** X6.  The traces and the three Yukawa subtraction terms are never
    negative, so for a non-negative gauge coupling the Yukawa couplings can
    only lower its derivative: [beta_g_i] is at most its gauge part. *)
Theorem yukawa_lowers_gauge_derivative (c : couplings) :
  (0 <= y_contrib1 c /\ 0 <= y_contrib2 c /\ 0 <= y_contrib3 c) /\
  (0 <= g1 c ->
   beta_g1 c
     <= g1 c ^ 3 / (16 * PI ^ 2) * b1
        + g1 c ^ 3 / (16 * PI ^ 2) ^ 2
          * (Bij 0 0 * g1 c ^ 2 + Bij 0 1 * g2 c ^ 2 + Bij 0 2 * g3 c ^ 2)) /\
  (0 <= g2 c ->
   beta_g2 c
     <= g2 c ^ 3 / (16 * PI ^ 2) * b2
        + g2 c ^ 3 / (16 * PI ^ 2) ^ 2
          * (Bij 1 0 * g1 c ^ 2 + Bij 1 1 * g2 c ^ 2 + Bij 1 1 * g3 c ^ 2)) /\
  (0 <= g3 c ->
   beta_g3 c
     <= g3 c ^ 3 / (16 * PI ^ 2) * b3
        + g3 c ^ 3 / (16 * PI ^ 2) ^ 2
          * (Bij 2 0 * g1 c ^ 2 + Bij 2 1 * g2 c ^ 2 + Bij 2 2 * g3 c ^ 2)).
Proof.
  pose proof (y_contribs_nonneg c) as [C1 [C2 C3]].
  split; [repeat split; assumption|].
  unfold beta_g1, beta_g2, beta_g3.
  repeat split; intros Hg; pose proof (two_loop_factor_nonneg _ Hg) as F.
  - pose proof (Rmult_le_pos _ _ F C1). lra.
  - pose proof (Rmult_le_pos _ _ F C2). lra.
  - pose proof (Rmult_le_pos _ _ F C3). lra.
Qed.

Lemma yukawa_lowers_gauge_derivative_witness :
  beta_g3 c_strange
    <= 1 ^ 3 / (16 * PI ^ 2) * b3
       + 1 ^ 3 / (16 * PI ^ 2) ^ 2
         * (Bij 2 0 * 1 ^ 2 + Bij 2 1 * 1 ^ 2 + Bij 2 2 * 1 ^ 2).
Proof.
  destruct (yukawa_lowers_gauge_derivative c_strange) as [_ [_ [_ H]]].
  apply H. cbn [g3 c_strange]. lra.
Defined.

Lemma gauge_part_nonneg (g b s : R) :
  0 <= g -> 0 <= b -> 0 <= s ->
  0 <= g ^ 3 / (16 * PI ^ 2) * b + g ^ 3 / (16 * PI ^ 2) ^ 2 * s.
Proof.
  intros Hg Hb Hs.
  pose proof sixteen_pi2_pos as K.
  assert (G : 0 <= g ^ 3) by (apply pow_le; exact Hg).
  assert (A : 0 <= g ^ 3 / (16 * PI ^ 2)).
  { apply Rmult_le_pos; [exact G|]. left. apply Rinv_0_lt_compat. exact K. }
  pose proof (two_loop_factor_nonneg g Hg) as F.
  pose proof (Rmult_le_pos _ _ A Hb).
  pose proof (Rmult_le_pos _ _ F Hs).
  lra.
Qed.

Lemma B_row_nonneg (i : nat) (x y z : R) :
  (i < 3)%nat ->
  0 <= Bij i 0 * x ^ 2 + Bij i 1 * y ^ 2 + Bij i 2 * z ^ 2.
Proof.
  intros Hi.
  pose proof (pow2_ge_0 x). pose proof (pow2_ge_0 y). pose proof (pow2_ge_0 z).
  do 3 (destruct i as [|i]; [unfold Bij, B; cbn [nth]; lra|]).
  lia.
Qed.

(** The row sum as line 63 writes it, with [B[1,1]] twice. *)
Lemma B_row1_as_coded_nonneg (x y z : R) :
  0 <= Bij 1 0 * x ^ 2 + Bij 1 1 * y ^ 2 + Bij 1 1 * z ^ 2.
Proof.
  pose proof (pow2_ge_0 x). pose proof (pow2_ge_0 y). pose proof (pow2_ge_0 z).
  unfold Bij, B; cbn [nth]; lra.
Qed.

(** X7.  With the seven Yukawa entries at 0, a gauge coupling that is not
    negative has a derivative that is not negative: the coefficients [b1],
    [b2], [b3] and all entries of [B] that the code uses are positive. *)
Theorem zero_yukawa_gauge_not_decreasing (c : couplings) :
  yt c = 0 -> yb c = 0 -> ytau c = 0 ->
  ys c = 0 -> yd c = 0 -> ymu c = 0 -> ye c = 0 ->
  (0 <= g1 c -> 0 <= beta_g1 c) /\
  (0 <= g2 c -> 0 <= beta_g2 c) /\
  (0 <= g3 c -> 0 <= beta_g3 c).
Proof.
  intros Ht Hb Htau Hs Hd Hmu He.
  assert (C1 : y_contrib1 c = 0)
    by (unfold y_contrib1, tr_Yu2, tr_Yd2, tr_Ye2;
        rewrite Ht, Hb, Htau, Hs, Hd, Hmu, He; lra).
  assert (C2 : y_contrib2 c = 0)
    by (unfold y_contrib2, tr_Yu2, tr_Yd2, tr_Ye2;
        rewrite Ht, Hb, Htau, Hs, Hd, Hmu, He; lra).
  assert (C3 : y_contrib3 c = 0)
    by (unfold y_contrib3, tr_Yu2, tr_Yd2;
        rewrite Ht, Hb, Hs, Hd; lra).
  unfold beta_g1, beta_g2, beta_g3. rewrite C1, C2, C3, !Rmult_0_r, !Rminus_0_r.
  repeat split; intros Hg; apply gauge_part_nonneg; try assumption;
    try (unfold b1, b2, b3; lra).
  - apply (B_row_nonneg 0). lia.
  - apply B_row1_as_coded_nonneg.
  - apply (B_row_nonneg 2). lia.
Qed.

Lemma zero_yukawa_gauge_not_decreasing_witness :
  0 <= beta_g1 c_gauge_only /\ 0 <= beta_g2 c_gauge_only /\
  0 <= beta_g3 c_gauge_only.
Proof.
  destruct (zero_yukawa_gauge_not_decreasing c_gauge_only) as [H1 [H2 H3]];
    try reflexivity.
  split; [apply H1; cbn [g1 c_gauge_only]; lra|].
  split; [apply H2; cbn [g2 c_gauge_only]; lra
         | apply H3; cbn [g3 c_gauge_only]; lra].
Defined.
